(** * AFSA backend (main.py): response-shaping contract of the HTTP handlers

    A shallow embedding of the FastAPI handlers of [main.py]:
    [run_simulation], [get_timeline], [legal_documents] and
    [test_database], together with the request validation that the
    declared model [SimulationRequest] asks of the framework.

    Python values are embedded as [pyval]; a Python [dict] is an
    insertion-ordered association list with unique keys; a Python [str] is
    a Rocq [string] holding its UTF-8 bytes.  Handlers are computations in
    a state-and-exception monad in which, as in Python, a mutation made
    before an exception is raised stays visible to the handler that catches
    it. *)

From Stdlib Require Import String Ascii List Arith ZArith Bool Lia.
Import ListNotations.
Local Open Scope string_scope.
Local Open Scope list_scope.

(** ** Python values *)

#[warnings="-register-all"]
Inductive pyval : Type :=
| PNone
| PBool (b : bool)
| PInt (z : Z)
| PStr (s : string)
| PList (l : list pyval)
| PDict (items : list (string * pyval)).

(** A [dict] with [str] keys, in insertion order. *)
Definition dict := list (string * pyval).

(** [d.get(k)] / [k in d]. *)
Fixpoint dict_get (d : dict) (k : string) : option pyval :=
  match d with
  | [] => None
  | (k', v) :: d' => if String.eqb k' k then Some v else dict_get d' k
  end.

(** [d[k] = v]: an existing key keeps its position, a new key is appended. *)
Fixpoint dict_set (d : dict) (k : string) (v : pyval) : dict :=
  match d with
  | [] => [(k, v)]
  | (k', v') :: d' =>
      if String.eqb k' k then (k', v) :: d' else (k', v') :: dict_set d' k v
  end.

(** [list(d.keys())]. *)
Definition dict_keys (d : dict) : list string := map fst d.

(** ** Strings

    Python indexes a [str] by code point.  On the UTF-8 bytes, a code point
    starts at every byte that is not a continuation byte [10xxxxxx]. *)

Definition is_continuation (c : ascii) : bool :=
  match c with
  | Ascii _ _ _ _ _ _ b6 b7 => b7 && negb b6
  end.

(** [s[:n]] on well-formed UTF-8: the first [n] code points of [s]. *)
Fixpoint str_prefix (n : nat) (s : string) : string :=
  match s with
  | EmptyString => EmptyString
  | String c rest =>
      if is_continuation c then String c (str_prefix n rest)
      else match n with
           | O => EmptyString
           | S n' => String c (str_prefix n' rest)
           end
  end.

(** [len(s)] on well-formed UTF-8. *)
Fixpoint str_len (s : string) : nat :=
  match s with
  | EmptyString => 0
  | String c rest =>
      if is_continuation c then str_len rest else S (str_len rest)
  end.

(** ** Exceptions

    The classes the handlers tell apart.  [ImportError] stands for itself
    and its subclass [ModuleNotFoundError]; [OtherException] for any other
    subclass of [Exception]; [BaseExceptionOnly] for what derives from
    [BaseException] but not from [Exception] ([KeyboardInterrupt],
    [SystemExit], [GeneratorExit]). *)

Inductive exc_class : Type :=
| ImportError
| AttributeError
| TypeError
| ValidationError
| OtherException
| BaseExceptionOnly.

(** An exception object: its class, and what [str(e)] does with it,
    which is to return the text or, when [__str__] fails, to raise
    another exception. *)
#[warnings="-register-all"]
Inductive exc : Type := mkExc {
  exc_cls : exc_class;
  exc_str : exc + string      (* str(e) *)
}.

(** An exception of class [c] whose text is [text]. *)
Definition error (c : exc_class) (text : string) : exc := mkExc c (inr text).

(** [isinstance(e, Exception)], the test of [except Exception]. *)
Definition is_Exception (e : exc) : bool :=
  match exc_cls e with
  | BaseExceptionOnly => false
  | _ => true
  end.

(** [isinstance(e, ImportError)], the test of [except ImportError]. *)
Definition is_ImportError (e : exc) : bool :=
  match exc_cls e with
  | ImportError => true
  | _ => false
  end.

(** [isinstance(e, AttributeError)], the test inside [hasattr]. *)
Definition is_AttributeError (e : exc) : bool :=
  match exc_cls e with
  | AttributeError => true
  | _ => false
  end.

(** ** State and exceptions

    [M S A]: a computation over a mutable store [S] that returns an [A] or
    raises.  The store is returned in both cases: Python does not undo the
    writes of a block that raised. *)

Module PyMonad.

Definition M (S A : Type) : Type := S -> (exc + A) * S.

Definition ret {S A} (a : A) : M S A := fun s => (inr a, s).

Definition bind {S A B} (m : M S A) (k : A -> M S B) : M S B :=
  fun s =>
    match m s with
    | (inl e, s') => (inl e, s')
    | (inr a, s') => k a s'
    end.

Definition raise {S A} (e : exc) : M S A := fun s => (inl e, s).

Definition modify {S} (f : S -> S) : M S unit := fun s => (inr tt, f s).

(** Run an operation of the environment that returns or raises. *)
Definition lift {S A} (r : exc + A) : M S A := fun s => (r, s).

(** [try: m  except ... as e: h e].  The handler [h] re-raises what no
    [except] clause matches. *)
Definition try_except {S A} (m : M S A) (h : exc -> M S A) : M S A :=
  fun s =>
    match m s with
    | (inl e, s') => h e s'
    | (inr a, s') => (inr a, s')
    end.

(** A list comprehension [[f x for x in l]]: left to right, stopping at
    the first exception. *)
Fixpoint for_each {S A B} (f : A -> M S B) (l : list A) : M S (list B) :=
  match l with
  | [] => ret []
  | x :: l' =>
      bind (f x) (fun y => bind (for_each f l') (fun ys => ret (y :: ys)))
  end.

End PyMonad.
Import PyMonad.

Declare Scope py_scope.
Delimit Scope py_scope with py.
Notation "x <- m ;; k" := (bind m (fun x => k))
  (at level 61, m at next level, right associativity) : py_scope.
Notation "m ;; k" := (bind m (fun _ => k))
  (at level 61, right associativity) : py_scope.
Local Open Scope py_scope.

(** ** The process a handler runs in

    What the handlers read from outside: the wall clock, the environment
    variables and the optional module [database], which is not part of
    [main.py]. *)

(** The fields of a [datetime] that [strftime("%H:%M:%S")] reads. *)
Record datetime : Type := mkDatetime {
  hour : nat;
  minute : nat;
  second : nat
}.

(** The object [db] of module [database], as far as [test_database] uses
    it: reading the attribute [name] and calling [list_collection_names()]
    each return or raise (a missing attribute raises [AttributeError]). *)
Record Database : Type := mkDatabase {
  db_name : exc + pyval;
  db_list_collection_names : exc + list string
}.

Record Process : Type := mkProcess {
  (** the wall clock: the value of the k-th call of [datetime.utcnow()] *)
  utc_clock : nat -> datetime;
  (** how many times the clock has been read so far *)
  clock_reads : nat;
  (** [os.environ] *)
  environ : string -> option string;
  (** [from database import db]: raises, or binds [db] to [None] or to an
      object *)
  import_db : exc + option Database
}.

(** A request handler. *)
Definition Handler (A : Type) : Type := M Process A.

(** The process after one more reading of the clock. *)
Definition tick (p : Process) : Process :=
  mkProcess (utc_clock p) (S (clock_reads p)) (environ p) (import_db p).

(** [datetime.utcnow()]: reads the clock, which moves on. *)
Definition utcnow : Handler datetime :=
  fun p => (inr (utc_clock p (clock_reads p)), tick p).

Definition digit (n : nat) : ascii := ascii_of_nat (48 + n).

(** [%H], [%M], [%S]: two decimal digits, zero padded. *)
Definition two_digits (n : nat) : string :=
  String (digit (n / 10)) (String (digit (n mod 10)) EmptyString).

(** [d.strftime("%H:%M:%S")]. *)
Definition strftime_HMS (d : datetime) : string :=
  two_digits (hour d) ++ ":" ++ two_digits (minute d) ++ ":" ++ two_digits (second d).

(** [os.getenv(k)]. *)
Definition getenv (k : string) : Handler (option string) :=
  fun p => (inr (environ p k), p).

(** Truth value of [os.getenv(k)]: [None] and the empty string are false. *)
Definition truthy (v : option string) : bool :=
  match v with
  | None => false
  | Some EmptyString => false
  | Some _ => true
  end.

(** ** POST /api/simulate *)

(** [class SimulationRequest(BaseModel)]: two optional strings. *)
Record SimulationRequest : Type := mkSimulationRequest {
  scenario : option string;
  speed : option string
}.

(** [class SimulationEvent(BaseModel)]. *)
Record SimulationEvent : Type := mkSimulationEvent {
  ev_t : string;
  ev_type : string;
  ev_message : string;
  ev_level : string
}.

(** What a request to [/api/simulate] comes to. *)
Inductive outcome (A : Type) : Type :=
| Returned (a : A)              (* 200, the handler's value *)
| Unprocessable                 (* 422, the body failed validation *)
| Fault (e : exc).              (* the handler raised *)
Arguments Returned {A} a.
Arguments Unprocessable {A}.
Arguments Fault {A} e.

Section Validation.

(** What the installed pydantic makes of a value that is not a [str] in
    a field declared [str]: its version 1 renders a number as a string,
    its version 2 rejects every such value.  [main.py] does not fix the
    version, the handlers are modelled for both. *)
Variable lax_str : pyval -> option string.

(** What the installed pydantic makes of a body that is not a JSON
    object: its version 1 tries [dict(value)], which turns an array of
    pairs into a dict, its version 2 rejects every such body. *)
Variable lax_dict : pyval -> option dict.

(** Validation of a field declared [str]. *)
Definition validate_str (v : pyval) : option string :=
  match v with
  | PStr s => Some s
  | _ => lax_str v
  end.

(** Validation of a field declared [Optional[str] = default]: an absent
    field takes the default, [null] is kept as [None], anything else is
    validated as a [str].  The outer [option] is [None] on failure. *)
Definition validate_optional_str (default : string) (field : option pyval)
  : option (option string) :=
  match field with
  | None => Some (Some default)
  | Some PNone => Some None
  | Some v =>
      match validate_str v with
      | Some s => Some (Some s)
      | None => None
      end
  end.

(** Validation of the fields of a body against [SimulationRequest]:
    unknown fields are ignored. *)
Definition validate_fields (fields : dict) : option SimulationRequest :=
  match validate_optional_str "upi_scam" (dict_get fields "scenario"),
        validate_optional_str "normal" (dict_get fields "speed") with
  | Some sc, Some sp => Some (mkSimulationRequest sc sp)
  | _, _ => None
  end.

(** Validation of a request body against [SimulationRequest]: the fields
    of a JSON object are validated; another body only if pydantic makes a
    dict of it. *)
Definition validate_SimulationRequest (body : pyval) : option SimulationRequest :=
  match body with
  | PDict fields => validate_fields fields
  | _ =>
      match lax_dict body with
      | Some fields => validate_fields fields
      | None => None
      end
  end.

(** A required field declared [str], taken from keyword arguments. *)
Definition required_str {S} (kwargs : dict) (k : string) : M S string :=
  match dict_get kwargs k with
  | Some v =>
      match validate_str v with
      | Some s => ret s
      | None => raise (error ValidationError k)
      end
  | None => raise (error ValidationError k)
  end.

(** [SimulationEvent(t=now, **e)]: a key [t] in [e] is a duplicate
    keyword argument; the three other fields are required strings. *)
Definition new_SimulationEvent {S} (now : string) (e : dict) : M S SimulationEvent :=
  match dict_get e "t" with
  | Some _ => raise (error TypeError "got multiple values for keyword argument 't'")
  | None =>
      ty <- required_str e "type" ;;
      msg <- required_str e "message" ;;
      lvl <- required_str e "level" ;;
      ret (mkSimulationEvent now ty msg lvl)
  end.

(** The list [base] of [run_simulation]. *)
Definition simulation_base : list dict :=
  [ [("type", PStr "info"); ("message", PStr "Monitoring… no threats detected."); ("level", PStr "info")];
    [("type", PStr "ingest"); ("message", PStr "New SMS analysed."); ("level", PStr "info")];
    [("type", PStr "detect"); ("message", PStr "Suspicious UPI intent detected."); ("level", PStr "warn")];
    [("type", PStr "freeze"); ("message", PStr "Auto-freeze triggered: UPI channel frozen."); ("level", PStr "critical")];
    [("type", PStr "legal"); ("message", PStr "Complaint drafted for cyber cell + RBI ombudsman."); ("level", PStr "success")];
    [("type", PStr "recover"); ("message", PStr "Recovery workflow initiated with bank dispute."); ("level", PStr "success")] ].

(** [def run_simulation(req)]. *)
Definition run_simulation (req : SimulationRequest) : Handler (list SimulationEvent) :=
  d <- utcnow ;;
  let now := strftime_HMS d in
  let base := simulation_base in
  events <- for_each (fun e => new_SimulationEvent now e) base ;;
  ret events.

(** The route [POST /api/simulate]: the body is validated against
    [SimulationRequest] before the handler runs. *)
Definition post_simulate (body : pyval) (p : Process)
  : outcome (list SimulationEvent) * Process :=
  match validate_SimulationRequest body with
  | None => (Unprocessable, p)
  | Some req =>
      match run_simulation req p with
      | (inr events, p') => (Returned events, p')
      | (inl e, p') => (Fault e, p')
      end
  end.

End Validation.

(** ** GET /api/timeline *)

(** [def get_timeline()]. *)
Definition get_timeline : Handler pyval :=
  let base := PList
    [ PDict [("time", PStr "12:00"); ("title", PStr "Fraud request created");
             ("data", PDict [("channel", PStr "UPI"); ("amount", PStr "₹9,999"); ("upi_id", PStr "abc@bank")])];
      PDict [("time", PStr "12:02"); ("title", PStr "AFSA detected mismatch");
             ("data", PDict [("pattern", PStr "merchant-risk-score>0.82"); ("device_ip", PStr "103.25.*")])];
      PDict [("time", PStr "12:03"); ("title", PStr "UPI frozen");
             ("data", PDict [("action", PStr "temporary_freeze"); ("duration", PStr "30 min")])];
      PDict [("time", PStr "12:05"); ("title", PStr "Complaint drafted");
             ("data", PDict [("refs", PList [PStr "Cyber Cell"; PStr "RBI Ombudsman"])])];
      PDict [("time", PStr "12:07"); ("title", PStr "Evidence package created");
             ("data", PDict [("items", PList [PStr "SMS"; PStr "UPI handle"; PStr "IP hash"])])];
      PDict [("time", PStr "12:10"); ("title", PStr "Recovery workflow initiated");
             ("data", PDict [("ticket", PStr "BK-34219"); ("priority", PStr "P1")])] ] in
  ret (PDict [("items", base)]).

(** ** GET /api/legal-docs *)

(** [def legal_documents()]. *)
Definition legal_documents : Handler pyval :=
  let docs := PList
    [ PDict [("id", PStr "cyber_complaint"); ("title", PStr "Cyber Complaint Draft");
             ("purpose", PStr "Pre-filled FIR-style complaint");
             ("actions", PList [PStr "preview"; PStr "download"; PStr "send"])];
      PDict [("id", PStr "rbi_letter"); ("title", PStr "RBI Ombudsman Letter");
             ("purpose", PStr "Escalation note with annexures");
             ("actions", PList [PStr "preview"; PStr "download"; PStr "send"])];
      PDict [("id", PStr "bank_dispute"); ("title", PStr "Bank Dispute Form (Autofilled)");
             ("purpose", PStr "Card/UPI chargeback workflow");
             ("actions", PList [PStr "preview"; PStr "download"; PStr "send"])];
      PDict [("id", PStr "reconstruction"); ("title", PStr "Fraud Reconstruction Summary");
             ("purpose", PStr "Timeline + evidence bundle");
             ("actions", PList [PStr "preview"; PStr "download"; PStr "send"])] ] in
  ret (PDict [("docs", docs)]).

(** ** GET /test *)

(** [response[k] = v] on the local dict [response]. *)
Definition setitem (k : string) (v : pyval) : M dict unit :=
  modify (fun response => dict_set response k v).

(** [hasattr(db, 'name')]: reads the attribute; [AttributeError] means
    no, any other exception goes on to the caller. *)
Definition hasattr_name {S} (db : Database) : M S bool :=
  match db_name db with
  | inr _ => ret true
  | inl e => if is_AttributeError e then ret false else raise e
  end.

(** The first statement of [test_database]: the dict [response]. *)
Definition initial_response : dict :=
  [ ("backend", PStr "✅ Running");
    ("database", PStr "❌ Not Available");
    ("database_url", PNone);
    ("database_name", PNone);
    ("connection_status", PStr "Not Connected");
    ("collections", PList []) ].

(** The [try] statement of [test_database], lines 101 to 124. *)
Definition probe_database (p : Process) : M dict unit :=
  try_except
    (db <- lift (import_db p) ;;
     match db with
     | Some db =>
         setitem "database" (PStr "✅ Available") ;;
         setitem "database_url" (PStr "✅ Configured") ;;
         name <- (has <- hasattr_name db ;;
                  if has then lift (db_name db) else ret (PStr "✅ Connected")) ;;
         setitem "database_name" name ;;
         setitem "connection_status" (PStr "Connected") ;;
         try_except
           (collections <- lift (db_list_collection_names db) ;;
            setitem "collections" (PList (map PStr (firstn 10 collections))) ;;
            setitem "database" (PStr "✅ Connected & Working"))
           (fun e =>
              if is_Exception e
              then text <- lift (exc_str e) ;;
                   setitem "database"
                     (PStr ("⚠️  Connected but Error: " ++ str_prefix 50 text))
              else raise e)
     | None =>
         setitem "database" (PStr "⚠️  Available but not initialized")
     end)
    (fun e =>
       if is_ImportError e
       then setitem "database"
              (PStr "❌ Database module not found (run enable-database first)")
       else if is_Exception e
       then text <- lift (exc_str e) ;;
            setitem "database" (PStr ("❌ Error: " ++ str_prefix 50 text))
       else raise e).

(** The environment check of [test_database], lines 126 to 129. *)
Definition check_environment (p : Process) : M dict unit :=
  setitem "database_url"
    (PStr (if truthy (environ p "DATABASE_URL") then "✅ Set" else "❌ Not Set")) ;;
  setitem "database_name"
    (PStr (if truthy (environ p "DATABASE_NAME") then "✅ Set" else "❌ Not Set")).

(** [def test_database()]: the handler owns the dict [response], starts it
    at [initial_response] and returns it. *)
Definition test_database : Handler pyval :=
  fun p =>
    match (probe_database p ;; check_environment p) initial_response with
    | (inr _, response) => (inr (PDict response), p)
    | (inl e, _) => (inl e, p)
    end.

(** ** Vocabulary of the specification *)

(** The enum the specification gives for [speed]. *)
Definition speed_enum : list string := ["slow"; "normal"; "fast"].

(** The order of event types the specification fixes. *)
Definition spec_types : list string :=
  ["info"; "ingest"; "detect"; "freeze"; "legal"; "recover"].

(** The levels the specification lists, in order. *)
Definition spec_levels : list string :=
  ["info"; "info"; "warn"; "critical"; "success"; "success"].

(** The specification's function from an event's type to its level. *)
Definition spec_level_of_type (ty : string) : option string :=
  if String.eqb ty "info" then Some "info"
  else if String.eqb ty "ingest" then Some "info"
  else if String.eqb ty "detect" then Some "warn"
  else if String.eqb ty "freeze" then Some "critical"
  else if String.eqb ty "legal" then Some "success"
  else if String.eqb ty "recover" then Some "success"
  else None.

(** The keys the specification fixes for the response of [/test]. *)
Definition spec_test_keys : list string :=
  ["backend"; "database"; "database_url"; "database_name";
   "connection_status"; "collections"].

(** The [actions] the specification gives every legal document. *)
Definition spec_actions : pyval :=
  PList [PStr "preview"; PStr "download"; PStr "send"].

(** ** Observations *)

(** [v[k]] on a value that is a dict. *)
Definition item (v : pyval) (k : string) : option pyval :=
  match v with
  | PDict d => dict_get d k
  | _ => None
  end.

(** The elements of a value that is a list. *)
Definition elements (v : option pyval) : option (list pyval) :=
  match v with
  | Some (PList l) => Some l
  | _ => None
  end.

(** The keys of a value that is a dict. *)
Definition keys (v : pyval) : option (list string) :=
  match v with
  | PDict d => Some (dict_keys d)
  | _ => None
  end.

(** Is the value a [str]? *)
Definition is_str (v : option pyval) : bool :=
  match v with
  | Some (PStr _) => true
  | _ => false
  end.

(** An event without its timestamp. *)
Definition content (e : SimulationEvent) : string * string * string :=
  (ev_type e, ev_message e, ev_level e).

(** The body passes validation against [SimulationRequest]. *)
Definition accepted (lax_str : pyval -> option string)
    (lax_dict : pyval -> option dict) (body : pyval) : bool :=
  match validate_SimulationRequest lax_str lax_dict body with
  | Some _ => true
  | None => false
  end.

(** The case of a pydantic that takes nothing but a [str] for a [str]. *)
Definition strict_str : pyval -> option string := fun _ => None.

(** The case of a pydantic that takes nothing but an object for a body. *)
Definition strict_dict : pyval -> option dict := fun _ => None.


(** What an operation of the data store raises, if it raises, is an error:
    an instance of [Exception]. *)
Definition raises_error_only {A} (r : exc + A) : bool :=
  match r with
  | inl e => is_Exception e
  | inr _ => true
  end.

Definition data_store_errors_only (p : Process) : bool :=
  match import_db p with
  | inl e => is_Exception e
  | inr None => true
  | inr (Some db) =>
      raises_error_only (db_name db) && raises_error_only (db_list_collection_names db)
  end.

(** The type, message and level of an entry of [base]. *)
Definition str_item (d : dict) (k : string) : string :=
  match dict_get d k with
  | Some (PStr s) => s
  | _ => EmptyString
  end.

Definition base_content (e : dict) : string * string * string :=
  (str_item e "type", str_item e "message", str_item e "level").

(** An entry of [base] with the timestamp put in front. *)
Definition stamp (now : string) (c : string * string * string) : SimulationEvent :=
  mkSimulationEvent now (fst (fst c)) (snd (fst c)) (snd c).

(** [m] keeps the invariant [I] of its store, whether it returns or
    raises. *)
Definition preserves {S A} (I : S -> Prop) (m : M S A) : Prop :=
  forall s, I s -> I (snd (m s)).

(** Reading [db.name] does not stop the probe: it returns, or the
    attribute is missing. *)
Definition name_readable (db : Database) : bool :=
  match db_name db with
  | inl e => is_AttributeError e
  | inr _ => true
  end.

(** The keys [probe_database] assigns besides [collections]. *)
Definition status_keys : list string :=
  ["database"; "database_url"; "database_name"; "connection_status"].

(** The data store raises [e]: at the import, on reading [db.name] or
    in [list_collection_names()]. *)
Definition store_raises (p : Process) (e : exc) : Prop :=
  import_db p = inl e \/
  exists db,
    import_db p = inr (Some db) /\
    (db_name db = inl e \/ db_list_collection_names db = inl e).

(** [str(e)] returns, for what the operation raises if it raises. *)
Definition text_renders {A} (r : exc + A) : bool :=
  match r with
  | inl e => match exc_str e with inr _ => true | inl _ => false end
  | inr _ => true
  end.

(** [str(e)] returns for every exception the data store raises. *)
Definition error_texts_render (p : Process) : bool :=
  match import_db p with
  | inl _ => text_renders (import_db p)
  | inr None => true
  | inr (Some db) =>
      text_renders (db_name db) && text_renders (db_list_collection_names db)
  end.

(** Two calls of the same handler, one after the other. *)
Definition twice {A} (h : Handler A) : Handler (A * A) :=
  a <- h ;; b <- h ;; ret (a, b).

(** ** Sample requests and processes *)

Definition ludicrous_body : pyval := PDict [("speed", PStr "ludicrous")].

Definition fast_body : pyval :=
  PDict [("scenario", PStr "upi_scam"); ("speed", PStr "fast")].

(** A clock that shows second [k] of 09:41 at its k-th reading. *)
Definition sample_clock (k : nat) : datetime := mkDatetime 9 41 k.

(** No [database] module, no environment variable. *)
Definition bare_process : Process :=
  mkProcess sample_clock 0 (fun _ => None)
    (inl (error ImportError "No module named 'database'")).

Definition twelve_names : list string :=
  ["c01"; "c02"; "c03"; "c04"; "c05"; "c06"; "c07"; "c08"; "c09"; "c10"; "c11"; "c12"].

(** A data store that answers, with twelve collections. *)
Definition working_process : Process :=
  mkProcess sample_clock 3
    (fun k => if String.eqb k "DATABASE_URL" then Some "mongodb://localhost:27017"
              else if String.eqb k "DATABASE_NAME" then Some "afsa" else None)
    (inr (Some (mkDatabase (inr (PStr "afsa")) (inr twelve_names)))).

(** A data store whose server cannot be reached. *)
Definition unreachable_process : Process :=
  mkProcess sample_clock 0 (fun _ => None)
    (inr (Some (mkDatabase (inr (PStr "afsa"))
                  (inl (error OtherException "localhost:27017: [Errno 111] Connection refused"))))).

(** ** Further observations and samples *)


(** The value is JSON [null]. *)
Definition is_null (v : pyval) : bool :=
  match v with
  | PNone => true
  | _ => false
  end.

(** Is the value a [dict]? *)
Definition is_dict (v : option pyval) : bool :=
  match v with
  | Some (PDict _) => true
  | _ => false
  end.

(** A [db] whose attribute [name] is computed by a late import that
    fails. *)
Definition lazy_name_db : Database :=
  mkDatabase (inl (error ImportError "No module named 'dns'")) (inr twelve_names).

(** A time of day as [datetime] holds it. *)
Definition valid_time (d : datetime) : bool :=
  Nat.ltb (hour d) 24 && Nat.ltb (minute d) 60 && Nat.ltb (second d) 60.

(** Two calls in a row, each with its own request. *)
Definition in_sequence {A B} (h1 : Handler A) (h2 : Handler B) : Handler (A * B) :=
  a <- h1 ;; b <- h2 ;; ret (a, b).

(** The process with another outcome of [from database import db]. *)
Definition with_import (p : Process) (imp : exc + option Database) : Process :=
  mkProcess (utc_clock p) (clock_reads p) (environ p) imp.

(** The import is interrupted from the keyboard. *)
Definition interrupted_process : Process :=
  with_import bare_process (inl (error BaseExceptionOnly "KeyboardInterrupt")).

(** The module is there, its import fails with a long message. *)
Definition long_message : string :=
  "ServerSelectionTimeoutError: localhost:27017: [Errno 111] Connection refused, Timeout: 30s".

Definition failing_import_process : Process :=
  with_import bare_process (inl (error OtherException long_message)).



(** A [db] whose attribute [name] raises. *)
Definition broken_name_db : Database :=
  mkDatabase (inl (error OtherException "name: not authorized")) (inr twelve_names).

Definition broken_name_process : Process :=
  with_import bare_process (inr (Some broken_name_db)).

(** Only [DATABASE_URL] is set, and to the empty string. *)
Definition empty_url_process : Process :=
  mkProcess sample_clock 0
    (fun k => if String.eqb k "DATABASE_URL" then Some EmptyString else None)
    (inl (error ImportError "No module named 'database'")).

(** * Properties *)

(** ** Dicts *)

Lemma dict_get_set_same d k v : dict_get (dict_set d k v) k = Some v.
Proof.
  induction d as [| [k' v'] d IH]; simpl.
  - now rewrite String.eqb_refl.
  - destruct (String.eqb k' k) eqn:E; simpl; now rewrite E.
Qed.

Lemma dict_get_set_other d k k' v :
  k <> k' -> dict_get (dict_set d k v) k' = dict_get d k'.
Proof.
  intros Hne. induction d as [| [k0 v0] d IH]; simpl.
  - destruct (String.eqb_spec k k'); [contradiction | reflexivity].
  - destruct (String.eqb_spec k0 k) as [-> | Hk]; simpl.
    + destruct (String.eqb_spec k k'); [contradiction | reflexivity].
    + now rewrite IH.
Qed.

(** Assigning to a key the dict already has changes no key. *)
Lemma dict_keys_set_present d k v :
  In k (dict_keys d) -> dict_keys (dict_set d k v) = dict_keys d.
Proof.
  unfold dict_keys. induction d as [| [k' v'] d IH]; simpl; intros Hin.
  - contradiction.
  - destruct (String.eqb_spec k' k) as [-> | Hk]; simpl.
    + reflexivity.
    + f_equal. apply IH. destruct Hin as [-> | Hin]; [contradiction | assumption].
Qed.

(** ** Strings *)

(** A slice [s[:n]] has at most [n] characters. *)
Lemma str_prefix_len n s : str_len (str_prefix n s) <= n.
Proof.
  revert n. induction s as [| c rest IH]; intros n; simpl.
  - lia.
  - destruct (is_continuation c) eqn:Hc; simpl.
    + rewrite Hc. apply IH.
    + destruct n as [| n']; simpl.
      * lia.
      * rewrite Hc. specialize (IH n'). lia.
Qed.

(** A string no longer than [n] is its own slice. *)
Lemma str_prefix_short n s : str_len s <= n -> str_prefix n s = s.
Proof.
  revert n. induction s as [| c rest IH]; intros n; simpl.
  - reflexivity.
  - destruct (is_continuation c); intros Hlen.
    + f_equal. apply IH, Hlen.
    + destruct n as [| n']; [lia |]. f_equal. apply IH. lia.
Qed.

(** ** The monad: what a computation leaves in the store *)

Section Preserves.

Context {S : Type} (I : S -> Prop).

Lemma preserves_ret {A} (a : A) : preserves I (ret a).
Proof. intros s Hs. exact Hs. Qed.

Lemma preserves_raise {A} (e : exc) : preserves I (@raise S A e).
Proof. intros s Hs. exact Hs. Qed.

Lemma preserves_lift {A} (r : exc + A) : preserves I (lift r).
Proof. intros s Hs. exact Hs. Qed.

Lemma preserves_modify (f : S -> S) :
  (forall s, I s -> I (f s)) -> preserves I (modify f).
Proof. intros Hf s Hs. apply Hf, Hs. Qed.

Lemma preserves_bind {A B} (m : M S A) (k : A -> M S B) :
  preserves I m -> (forall a, preserves I (k a)) -> preserves I (bind m k).
Proof.
  intros Hm Hk s Hs. unfold bind. specialize (Hm s Hs).
  destruct (m s) as [[e | a] s']; simpl in *.
  - exact Hm.
  - apply Hk, Hm.
Qed.

Lemma preserves_try_except {A} (m : M S A) (h : exc -> M S A) :
  preserves I m -> (forall e, preserves I (h e)) -> preserves I (try_except m h).
Proof.
  intros Hm Hh s Hs. unfold try_except. specialize (Hm s Hs).
  destruct (m s) as [[e | a] s']; simpl in *.
  - apply Hh, Hm.
  - exact Hm.
Qed.

End Preserves.

(** ** POST /api/simulate *)

Section Simulate.

Variable lax_str : pyval -> option string.
Variable lax_dict : pyval -> option dict.

(** [run_simulation] reads the clock once, never raises, and stamps that
    one reading on the six entries of [base], whatever the request. *)
Lemma run_simulation_returns req p :
  run_simulation lax_str req p =
    (inr (map (stamp (strftime_HMS (utc_clock p (clock_reads p))))
            (map base_content simulation_base)),
     tick p).
Proof. reflexivity. Qed.

(** An accepted body reaches the handler, and the handler's events are
    the response. *)
Lemma post_simulate_accepted body p :
  accepted lax_str lax_dict body = true ->
  post_simulate lax_str lax_dict body p =
    (Returned (map (stamp (strftime_HMS (utc_clock p (clock_reads p))))
                 (map base_content simulation_base)),
     tick p).
Proof.
  unfold accepted, post_simulate. intros Hacc.
  destruct (validate_SimulationRequest lax_str lax_dict body) as [req |]; [| discriminate].
  now rewrite run_simulation_returns.
Qed.

(** A rejected body never reaches the handler. *)
Lemma post_simulate_rejected body p :
  accepted lax_str lax_dict body = false ->
  post_simulate lax_str lax_dict body p = (Unprocessable, p).
Proof.
  unfold accepted, post_simulate. intros Hacc.
  destruct (validate_SimulationRequest lax_str lax_dict body); [discriminate | reflexivity].
Qed.

(** A string is accepted for [speed] as it is. *)
Lemma validate_speed_string fields s sc :
  dict_get fields "speed" = Some (PStr s) ->
  validate_optional_str lax_str "upi_scam" (dict_get fields "scenario") = Some sc ->
  validate_SimulationRequest lax_str lax_dict (PDict fields) =
    Some (mkSimulationRequest sc (Some s)).
Proof.
  intros Hspeed Hsc. unfold validate_SimulationRequest, validate_fields.
  rewrite Hsc, Hspeed. reflexivity.
Qed.

(** What the code does with a [speed] that is a string: whether or not
    it is one of slow, normal, fast, the body passes validation with that
    string kept as its speed, and the list of six events is returned.
    Nothing compares the string with the three values of the comment on
    line 23. *)
Theorem simulate_accepts_any_speed_string fields s sc p :
  dict_get fields "speed" = Some (PStr s) ->
  validate_optional_str lax_str "upi_scam" (dict_get fields "scenario") = Some sc ->
  validate_SimulationRequest lax_str lax_dict (PDict fields) =
    Some (mkSimulationRequest sc (Some s)) /\
  exists events,
    post_simulate lax_str lax_dict (PDict fields) p = (Returned events, tick p) /\
    length events = 6 /\
    map ev_type events = spec_types.
Proof.
  intros Hspeed Hsc.
  pose proof (validate_speed_string fields s sc Hspeed Hsc) as Hreq.
  split; [exact Hreq |].
  eexists. split.
  - apply post_simulate_accepted. unfold accepted. now rewrite Hreq.
  - split; reflexivity.
Qed.

(** C2: for every valid input, POST /api/simulate returns exactly six
    events whose types are, in order, info, ingest, detect, freeze,
    legal, recover, and whose levels are the specification's function of
    their types: info, info, warn, critical, success, success. *)
Theorem simulate_six_events_in_order body p :
  accepted lax_str lax_dict body = true ->
  exists req events,
    validate_SimulationRequest lax_str lax_dict body = Some req /\
    run_simulation lax_str req p = (inr events, tick p) /\
    post_simulate lax_str lax_dict body p = (Returned events, tick p) /\
    length events = 6 /\
    map ev_type events = spec_types /\
    map ev_level events = spec_levels /\
    Forall (fun e => spec_level_of_type (ev_type e) = Some (ev_level e)) events.
Proof.
  intros Hacc. pose proof (post_simulate_accepted body p Hacc) as Hpost.
  unfold accepted in Hacc.
  destruct (validate_SimulationRequest lax_str lax_dict body) as [req |]; [| discriminate].
  exists req. eexists.
  split; [reflexivity |].
  split; [apply run_simulation_returns |].
  split; [exact Hpost |].
  repeat split; try reflexivity.
  repeat constructor.
Qed.

(** C3: within one call of [run_simulation] the clock is read once, and
    all six events carry that one reading as their [t], even when the
    clock shows another time at every reading. *)
Theorem simulate_single_timestamp req p :
  exists events,
    run_simulation lax_str req p = (inr events, tick p) /\
    length events = 6 /\
    Forall (fun e => ev_t e = strftime_HMS (utc_clock p (clock_reads p))) events /\
    Forall (fun e1 => Forall (fun e2 => ev_t e1 = ev_t e2) events) events /\
    clock_reads (tick p) = S (clock_reads p).
Proof.
  eexists. split; [apply run_simulation_returns |].
  split; [reflexivity |].
  split; [| split; [| reflexivity]].
  - repeat constructor.
  - repeat constructor.
Qed.

(** C4: two accepted requests, whatever their scenario and speed and
    whenever they are handled, are answered with six events that agree
    on type, message and level, position by position; only [t] may
    differ. *)
Theorem simulate_content_independent_of_request body1 body2 p1 p2 :
  accepted lax_str lax_dict body1 = true ->
  accepted lax_str lax_dict body2 = true ->
  exists events1 events2,
    post_simulate lax_str lax_dict body1 p1 = (Returned events1, tick p1) /\
    post_simulate lax_str lax_dict body2 p2 = (Returned events2, tick p2) /\
    length events1 = 6 /\
    length events2 = 6 /\
    map content events1 = map content events2.
Proof.
  intros H1 H2. do 2 eexists.
  split; [apply post_simulate_accepted, H1 |].
  split; [apply post_simulate_accepted, H2 |].
  repeat split.
Qed.

End Simulate.

(** C1, on the code: the claim asks that a [speed] outside slow, normal,
    fast fail the request with a validation error.  The code does not do
    so: the speed "ludicrous" is outside the enum, yet the body passes
    validation with that speed kept, the request is not rejected and the
    six events are returned. *)
Lemma simulate_ludicrous_is_accepted :
  ~ In "ludicrous" speed_enum /\
  validate_SimulationRequest strict_str strict_dict ludicrous_body =
    Some (mkSimulationRequest (Some "upi_scam") (Some "ludicrous")) /\
  fst (post_simulate strict_str strict_dict ludicrous_body bare_process) <> Unprocessable /\
  exists events,
    post_simulate strict_str strict_dict ludicrous_body bare_process =
      (Returned events, tick bare_process) /\
    length events = 6.
Proof.
  split.
  - simpl. intros [H | [H | [H | []]]]; discriminate H.
  - split; [reflexivity |]. split; [discriminate |].
    eexists. split; reflexivity.
Qed.

Lemma simulate_accepts_any_speed_string_witness :
  dict_get [("speed", PStr "ludicrous")] "speed" = Some (PStr "ludicrous") /\
  validate_optional_str strict_str "upi_scam"
    (dict_get [("speed", PStr "ludicrous")] "scenario") = Some (Some "upi_scam") /\
  (validate_SimulationRequest strict_str strict_dict ludicrous_body =
     Some (mkSimulationRequest (Some "upi_scam") (Some "ludicrous")) /\
   exists events,
     post_simulate strict_str strict_dict ludicrous_body bare_process =
       (Returned events, tick bare_process) /\
     length events = 6 /\
     map ev_type events = spec_types).
Proof.
  split; [reflexivity |]. split; [reflexivity |].
  apply (simulate_accepts_any_speed_string strict_str strict_dict
           [("speed", PStr "ludicrous")] "ludicrous" (Some "upi_scam") bare_process);
    reflexivity.
Defined.

Lemma simulate_six_events_in_order_witness :
  accepted strict_str strict_dict fast_body = true /\
  exists req events,
    validate_SimulationRequest strict_str strict_dict fast_body = Some req /\
    run_simulation strict_str req working_process = (inr events, tick working_process) /\
    post_simulate strict_str strict_dict fast_body working_process =
      (Returned events, tick working_process) /\
    length events = 6 /\
    map ev_type events = spec_types /\
    map ev_level events = spec_levels /\
    Forall (fun e => spec_level_of_type (ev_type e) = Some (ev_level e)) events.
Proof.
  split; [reflexivity |].
  apply (simulate_six_events_in_order strict_str strict_dict fast_body working_process).
  reflexivity.
Defined.

Lemma simulate_content_independent_of_request_witness :
  accepted strict_str strict_dict fast_body = true /\
  accepted strict_str strict_dict (PDict []) = true /\
  exists events1 events2,
    post_simulate strict_str strict_dict fast_body bare_process = (Returned events1, tick bare_process) /\
    post_simulate strict_str strict_dict (PDict []) working_process =
      (Returned events2, tick working_process) /\
    length events1 = 6 /\
    length events2 = 6 /\
    map content events1 = map content events2.
Proof.
  split; [reflexivity |]. split; [reflexivity |].
  apply (simulate_content_independent_of_request strict_str strict_dict fast_body (PDict [])
           bare_process working_process); reflexivity.
Defined.

(** ** GET /test *)

Ltac keep_step :=
  lazymatch goal with
  | |- preserves _ (ret _) => apply preserves_ret
  | |- preserves _ (raise _) => apply preserves_raise
  | |- preserves _ (lift _) => apply preserves_lift
  | |- preserves _ (bind _ _) => apply preserves_bind; [| intro]
  | |- preserves _ (try_except _ _) => apply preserves_try_except; [| intro]
  | |- preserves _ (modify _) => apply preserves_modify; intros ? ?
  | |- preserves _ (match ?x with _ => _ end) => destruct x
  end.

Section Probe.

Variable I : dict -> Prop.

Hypothesis I_status :
  forall k v response, In k status_keys -> I response -> I (dict_set response k v).

Hypothesis I_collections :
  forall names response,
    I response ->
    I (dict_set response "collections" (PList (map PStr (firstn 10 names)))).

Lemma hasattr_name_preserves db : preserves I (@hasattr_name dict db).
Proof. unfold hasattr_name. repeat keep_step. Qed.

Lemma probe_database_preserves p : preserves I (probe_database p).
Proof.
  unfold probe_database, setitem.
  repeat first
    [ apply hasattr_name_preserves
    | keep_step
    | apply I_collections; assumption
    | apply I_status; [simpl; tauto | assumption] ].
Qed.

Lemma check_environment_preserves p : preserves I (check_environment p).
Proof.
  unfold check_environment, setitem.
  repeat first [ keep_step | apply I_status; [simpl; tauto | assumption] ].
Qed.

(** Whatever [test_database] returns is the dict [response], and it
    satisfies every invariant that holds at the start and that the
    assignments keep. *)
Lemma test_database_response p r :
  I initial_response ->
  fst (test_database p) = inr r ->
  exists response, r = PDict response /\ I response.
Proof.
  intros Hinit. unfold test_database.
  assert (Hkeep : preserves I (probe_database p ;; check_environment p)).
  { apply preserves_bind; [apply probe_database_preserves |].
    intros _. apply check_environment_preserves. }
  specialize (Hkeep initial_response Hinit).
  destruct ((probe_database p ;; check_environment p) initial_response)
    as [[e | u] response]; simpl in *; intros Hr.
  - discriminate Hr.
  - injection Hr as <-. exists response. split; [reflexivity | exact Hkeep].
Qed.

End Probe.

(** Every case of what the data store may do, as far as the handler
    looks at it: whatever the run of [test_database] is stuck on (the
    outcome of the import, of [db.name], of the listing, the class of an
    exception, the outcome of [str(e)]) is split into its cases. *)
Ltac crack_scrutinee x :=
  first [ is_var x; destruct x
        | match x with
          | ?f ?y => is_var y; destruct y
          end ].

Ltac data_store_cases p :=
  destruct p as [? ? ? ?];
  unfold test_database, probe_database, check_environment, hasattr_name,
    setitem, bind, ret, raise, lift, modify, try_except,
    is_ImportError, is_Exception, is_AttributeError in *;
  repeat (simpl in *;
          match goal with
          | |- context [match ?x with _ => _ end] => crack_scrutinee x
          | H : context [match ?x with _ => _ end] |- _ => crack_scrutinee x
          end);
  simpl in *.

(** As long as the data store raises nothing but errors, and the text of
    these errors can be had, [test_database] returns its dict and leaves
    the process as it was. *)
Lemma test_database_returns p :
  data_store_errors_only p = true ->
  error_texts_render p = true ->
  exists response,
    test_database p = (inr (PDict response), p) /\
    is_str (dict_get response "backend") = true /\
    is_str (dict_get response "database") = true /\
    is_str (dict_get response "database_url") = true /\
    is_str (dict_get response "database_name") = true /\
    is_str (dict_get response "connection_status") = true.
Proof.
  unfold data_store_errors_only, error_texts_render, raises_error_only, text_renders.
  data_store_cases p; intros Herr Htxt; try discriminate Herr; try discriminate Htxt;
    (eexists; split; [reflexivity | repeat split]).
Qed.

(** The environment check has the last word on [database_url] and
    [database_name]. *)
Lemma test_database_environment p r :
  fst (test_database p) = inr r ->
  item r "database_url" =
    Some (PStr (if truthy (environ p "DATABASE_URL") then "✅ Set" else "❌ Not Set")) /\
  item r "database_name" =
    Some (PStr (if truthy (environ p "DATABASE_NAME") then "✅ Set" else "❌ Not Set")).
Proof.
  unfold test_database, bind, check_environment, setitem, modify.
  destruct (probe_database p initial_response) as [[e | u] response]; simpl;
    intros Hr; [discriminate Hr |].
  injection Hr as <-. simpl. split.
  - rewrite dict_get_set_other by discriminate. apply dict_get_set_same.
  - apply dict_get_set_same.
Qed.

(** An error raised by the import, other than [ImportError], is rendered
    in [database] with the first 50 characters of its text. *)
Lemma test_database_import_error p e text :
  import_db p = inl e ->
  is_ImportError e = false ->
  is_Exception e = true ->
  exc_str e = inr text ->
  exists response,
    test_database p = (inr (PDict response), p) /\
    dict_get response "database" =
      Some (PStr ("❌ Error: " ++ str_prefix 50 text)) /\
    dict_get response "connection_status" = Some (PStr "Not Connected") /\
    dict_get response "collections" = Some (PList []).
Proof.
  destruct p as [clk n env imp]. simpl. intros -> Himp Hexc Htext.
  unfold test_database, probe_database, bind, try_except, lift. simpl.
  rewrite Himp, Hexc, Htext. simpl.
  eexists. split; [reflexivity |]. repeat split.
Qed.

(** An error raised by [list_collection_names()] is rendered in
    [database] in the same way, and [collections] stays empty. *)
Lemma test_database_listing_error p db e text :
  import_db p = inr (Some db) ->
  name_readable db = true ->
  db_list_collection_names db = inl e ->
  is_Exception e = true ->
  exc_str e = inr text ->
  exists response,
    test_database p = (inr (PDict response), p) /\
    dict_get response "database" =
      Some (PStr ("⚠️  Connected but Error: " ++ str_prefix 50 text)) /\
    dict_get response "connection_status" = Some (PStr "Connected") /\
    dict_get response "collections" = Some (PList []).
Proof.
  destruct p as [clk n env imp]. destruct db as [nm lst]. simpl.
  intros -> Hname -> Hexc Htext.
  unfold test_database, probe_database, bind, try_except, lift, hasattr_name. simpl.
  unfold name_readable in Hname. simpl in Hname.
  destruct nm as [en | v]; [rewrite Hname |]; simpl; rewrite Hexc, Htext; simpl;
    (eexists; split; [reflexivity |]; repeat split).
Qed.

(** With [DATABASE_URL] and [DATABASE_NAME] unset and the import of
    [database] ending in [ImportError], GET /test returns a response whose
    [database_url] and [database_name] are both the string for not set,
    and raises nothing. *)
Lemma test_database_not_configured p e :
  environ p "DATABASE_URL" = None ->
  environ p "DATABASE_NAME" = None ->
  import_db p = inl e ->
  is_ImportError e = true ->
  exists response,
    test_database p = (inr (PDict response), p) /\
    dict_get response "database_url" = Some (PStr "❌ Not Set") /\
    dict_get response "database_name" = Some (PStr "❌ Not Set") /\
    dict_get response "database" =
      Some (PStr "❌ Database module not found (run enable-database first)") /\
    dict_get response "connection_status" = Some (PStr "Not Connected") /\
    dict_get response "collections" = Some (PList []).
Proof.
  destruct p as [clk n env imp]. simpl. intros Hurl Hname -> Hcls.
  unfold test_database, probe_database, bind, try_except, lift. simpl.
  rewrite Hcls. simpl.
  eexists. split; [reflexivity |]. simpl. rewrite Hurl, Hname.
  repeat split.
Qed.


(** C9: every response of GET /test is a mapping with exactly the six keys
    backend, database, database_url, database_name, connection_status and
    collections, whatever the data store does; and the response is there
    whenever the data store raises nothing but errors whose text can be
    had. *)
Theorem test_database_six_keys p :
  (forall r, fst (test_database p) = inr r -> keys r = Some spec_test_keys) /\
  (data_store_errors_only p = true ->
   error_texts_render p = true ->
   exists r, test_database p = (inr r, p) /\ keys r = Some spec_test_keys).
Proof.
  assert (Hall : forall r, fst (test_database p) = inr r -> keys r = Some spec_test_keys).
  { intros r Hr.
    destruct (test_database_response
                (fun response => dict_keys response = spec_test_keys)) with (p := p) (r := r)
      as (response & -> & Hkeys); try assumption; try reflexivity.
    - intros k v response Hin Hk. rewrite dict_keys_set_present; [exact Hk |].
      rewrite Hk. unfold status_keys in Hin. simpl in *. tauto.
    - intros names response Hk. rewrite dict_keys_set_present; [exact Hk |].
      rewrite Hk. simpl. tauto.
    - simpl. now rewrite Hkeys. }
  split; [exact Hall |].
  intros Herr Htxt.
  destruct (test_database_returns p Herr Htxt) as (response & Hrun & _).
  exists (PDict response). split; [exact Hrun |].
  apply Hall. now rewrite Hrun.
Qed.

Lemma test_database_six_keys_witness :
  fst (test_database unreachable_process) =
    inr (PDict
           [("backend", PStr "✅ Running");
            ("database",
             PStr "⚠️  Connected but Error: localhost:27017: [Errno 111] Connection refused");
            ("database_url", PStr "❌ Not Set");
            ("database_name", PStr "❌ Not Set");
            ("connection_status", PStr "Connected");
            ("collections", PList [])]) /\
  data_store_errors_only working_process = true /\
  error_texts_render working_process = true /\
  keys (PDict
          [("backend", PStr "✅ Running");
           ("database",
            PStr "⚠️  Connected but Error: localhost:27017: [Errno 111] Connection refused");
           ("database_url", PStr "❌ Not Set");
           ("database_name", PStr "❌ Not Set");
           ("connection_status", PStr "Connected");
           ("collections", PList [])]) = Some spec_test_keys /\
  exists r,
    test_database working_process = (inr r, working_process) /\
    keys r = Some spec_test_keys.
Proof.
  split; [reflexivity |]. split; [reflexivity |]. split; [reflexivity |]. split.
  - apply (proj1 (test_database_six_keys unreachable_process)). reflexivity.
  - apply (proj2 (test_database_six_keys working_process)); reflexivity.
Defined.

(** C10: in every response of GET /test, [collections] is a list of at
    most 10 names; when the data store lists its collections, the field
    holds the first 10 of them and no more; and the response is there
    whenever the data store raises nothing but errors whose text can be
    had. *)
Theorem test_database_collections_at_most_ten p :
  (forall r,
      fst (test_database p) = inr r ->
      exists names,
        item r "collections" = Some (PList (map PStr names)) /\ length names <= 10) /\
  (forall db names,
      import_db p = inr (Some db) ->
      name_readable db = true ->
      db_list_collection_names db = inr names ->
      exists response,
        test_database p = (inr (PDict response), p) /\
        dict_get response "collections" = Some (PList (map PStr (firstn 10 names)))) /\
  (data_store_errors_only p = true ->
   error_texts_render p = true ->
   exists r names,
     test_database p = (inr r, p) /\
     item r "collections" = Some (PList (map PStr names)) /\ length names <= 10).
Proof.
  assert (Hall : forall r,
             fst (test_database p) = inr r ->
             exists names,
               item r "collections" = Some (PList (map PStr names)) /\ length names <= 10).
  { intros r Hr.
    destruct (test_database_response
                (fun response =>
                   exists names,
                     dict_get response "collections" = Some (PList (map PStr names)) /\
                     length names <= 10)) with (p := p) (r := r)
      as (response & -> & Hinv); try assumption.
    - intros k v response Hin (names & Hget & Hlen). exists names.
      split; [| exact Hlen]. rewrite dict_get_set_other; [exact Hget |].
      unfold status_keys in Hin. simpl in Hin.
      destruct Hin as [<- | [<- | [<- | [<- | []]]]]; discriminate.
    - intros names response _. exists (firstn 10 names).
      split; [apply dict_get_set_same | apply firstn_le_length].
    - exists []. split; [reflexivity | simpl; lia]. }
  split; [exact Hall |]. split.
  - destruct p as [clk n env imp]. intros [nm lst] names. simpl.
    intros -> Hname ->. unfold name_readable in Hname. simpl in Hname.
    unfold test_database, probe_database, bind, try_except, lift, hasattr_name. simpl.
    destruct nm as [en | v]; [rewrite Hname |]; simpl;
      (eexists; split; [reflexivity |]; reflexivity).
  - intros Herr Htxt.
    destruct (test_database_returns p Herr Htxt) as (response & Hrun & _).
    destruct (Hall (PDict response)) as (names & Hget & Hlen); [now rewrite Hrun |].
    exists (PDict response), names. repeat split; assumption.
Qed.

Lemma test_database_collections_at_most_ten_witness :
  import_db working_process =
    inr (Some (mkDatabase (inr (PStr "afsa")) (inr twelve_names))) /\
  name_readable (mkDatabase (inr (PStr "afsa")) (inr twelve_names)) = true /\
  length twelve_names = 12 /\
  data_store_errors_only working_process = true /\
  error_texts_render working_process = true /\
  (exists response,
      test_database working_process = (inr (PDict response), working_process) /\
      dict_get response "collections" = Some (PList (map PStr (firstn 10 twelve_names)))) /\
  (exists r,
      fst (test_database bare_process) = inr r /\
      exists names,
        item r "collections" = Some (PList (map PStr names)) /\ length names <= 10) /\
  (exists r names,
      test_database working_process = (inr r, working_process) /\
      item r "collections" = Some (PList (map PStr names)) /\ length names <= 10).
Proof.
  split; [reflexivity |]. split; [reflexivity |]. split; [reflexivity |].
  split; [reflexivity |]. split; [reflexivity |]. split; [| split].
  - apply (proj1 (proj2 (test_database_collections_at_most_ten working_process))
             (mkDatabase (inr (PStr "afsa")) (inr twelve_names)) twelve_names);
      reflexivity.
  - eexists. split; [reflexivity |].
    apply (proj1 (test_database_collections_at_most_ten bare_process)).
    reflexivity.
  - apply (proj2 (proj2 (test_database_collections_at_most_ten working_process)));
      reflexivity.
Defined.

(** ** GET /api/timeline and GET /api/legal-docs *)

(** C6: [get_timeline] returns, in every state of the process, the same
    six items in the same order; the first is titled "Fraud request
    created" and the last "Recovery workflow initiated". *)
Theorem get_timeline_six_items p :
  exists items,
    get_timeline p = (inr (PDict [("items", PList items)]), p) /\
    length items = 6 /\
    item (hd PNone items) "title" = Some (PStr "Fraud request created") /\
    item (last items PNone) "title" = Some (PStr "Recovery workflow initiated") /\
    map (fun i => item i "title") items =
      [ Some (PStr "Fraud request created"); Some (PStr "AFSA detected mismatch");
        Some (PStr "UPI frozen"); Some (PStr "Complaint drafted");
        Some (PStr "Evidence package created");
        Some (PStr "Recovery workflow initiated") ] /\
    map (fun i => item i "time") items =
      [ Some (PStr "12:00"); Some (PStr "12:02"); Some (PStr "12:03");
        Some (PStr "12:05"); Some (PStr "12:07"); Some (PStr "12:10") ] /\
    forall q, fst (get_timeline q) = inr (PDict [("items", PList items)]).
Proof.
  eexists. split; [reflexivity |]. repeat split.
Qed.

(** C7: [legal_documents] returns exactly four documents, and the
    [actions] of each is the list preview, download, send, in that
    order. *)
Theorem legal_documents_four_docs p :
  exists docs,
    legal_documents p = (inr (PDict [("docs", PList docs)]), p) /\
    length docs = 4 /\
    Forall (fun d => item d "actions" = Some spec_actions) docs /\
    map (fun d => item d "id") docs =
      [ Some (PStr "cyber_complaint"); Some (PStr "rbi_letter");
        Some (PStr "bank_dispute"); Some (PStr "reconstruction") ].
Proof.
  eexists. split; [reflexivity |]. split; [reflexivity |].
  split; [repeat constructor | reflexivity].
Qed.

(** C8: [get_timeline] and [legal_documents] are idempotent within one
    process: they return the same payload in any two states of the
    process, leave the state as it was, and two calls in a row return the
    same payload twice. *)
Theorem timeline_and_legal_docs_idempotent p q :
  fst (get_timeline p) = fst (get_timeline q) /\
  fst (legal_documents p) = fst (legal_documents q) /\
  snd (get_timeline p) = p /\
  snd (legal_documents p) = p /\
  (exists payload, twice get_timeline p = (inr (payload, payload), p)) /\
  (exists payload, twice legal_documents p = (inr (payload, payload), p)).
Proof.
  repeat split; try reflexivity; eexists; reflexivity.
Qed.


(** * Further properties of the handlers *)

(** ** POST /api/simulate: validation and the clock *)

Section SimulateMore.

Variable lax_str : pyval -> option string.
Variable lax_dict : pyval -> option dict.

(** X1: two calls of [run_simulation] in a row read the clock at two
    consecutive readings: the events of each call share that call's
    reading, and the two lists agree on everything but [t]. *)
Theorem simulate_consecutive_calls req1 req2 p :
  exists events1 events2,
    in_sequence (run_simulation lax_str req1) (run_simulation lax_str req2) p =
      (inr (events1, events2), tick (tick p)) /\
    map ev_t events1 = repeat (strftime_HMS (utc_clock p (clock_reads p))) 6 /\
    map ev_t events2 = repeat (strftime_HMS (utc_clock p (S (clock_reads p)))) 6 /\
    map content events1 = map content events2.
Proof.
  do 2 eexists. split; [reflexivity |]. repeat split.
Qed.

(** X2: a request to POST /api/simulate never ends in a fault of the
    handler.  Either the body fails validation, and then the clock is not
    read; or it is answered with events after exactly one reading. *)
Theorem simulate_rejected_or_answered body p :
  (accepted lax_str lax_dict body = false /\
   post_simulate lax_str lax_dict body p = (Unprocessable, p)) \/
  (accepted lax_str lax_dict body = true /\
   exists events,
     post_simulate lax_str lax_dict body p = (Returned events, tick p) /\ length events = 6).
Proof.
  destruct (accepted lax_str lax_dict body) eqn:Hacc.
  - right. split; [reflexivity |]. eexists. split.
    + apply post_simulate_accepted, Hacc.
    + reflexivity.
  - left. split; [reflexivity |]. apply post_simulate_rejected, Hacc.
Qed.


(** X4: fields other than [scenario] and [speed] are ignored: setting one
    in the body changes neither the validated request nor the answer. *)
Theorem simulate_ignores_unknown_fields fields k v p :
  String.eqb k "scenario" = false ->
  String.eqb k "speed" = false ->
  validate_SimulationRequest lax_str lax_dict (PDict (dict_set fields k v)) =
    validate_SimulationRequest lax_str lax_dict (PDict fields) /\
  post_simulate lax_str lax_dict (PDict (dict_set fields k v)) p =
    post_simulate lax_str lax_dict (PDict fields) p.
Proof.
  intros Hsc Hsp.
  apply String.eqb_neq in Hsc. apply String.eqb_neq in Hsp.
  assert (Hval : validate_SimulationRequest lax_str lax_dict (PDict (dict_set fields k v)) =
                 validate_SimulationRequest lax_str lax_dict (PDict fields)).
  { unfold validate_SimulationRequest, validate_fields.
    now rewrite !dict_get_set_other by assumption. }
  split; [exact Hval |]. unfold post_simulate. now rewrite Hval.
Qed.

(** X5: what the validated request holds for a field: the declared
    default when the body leaves the field out, [None] when the body gives
    [null] (the default is not put in), and the string itself when the
    body gives a string. *)
Theorem simulate_request_fields fields req :
  validate_SimulationRequest lax_str lax_dict (PDict fields) = Some req ->
  (dict_get fields "scenario" = None -> scenario req = Some "upi_scam") /\
  (dict_get fields "speed" = None -> speed req = Some "normal") /\
  (dict_get fields "scenario" = Some PNone -> scenario req = None) /\
  (dict_get fields "speed" = Some PNone -> speed req = None) /\
  (forall s, dict_get fields "scenario" = Some (PStr s) -> scenario req = Some s) /\
  (forall s, dict_get fields "speed" = Some (PStr s) -> speed req = Some s).
Proof.
  unfold validate_SimulationRequest, validate_fields.
  destruct (validate_optional_str lax_str "upi_scam" (dict_get fields "scenario"))
    as [sc |] eqn:Hsc; [| discriminate].
  destruct (validate_optional_str lax_str "normal" (dict_get fields "speed"))
    as [sp |] eqn:Hsp; [| discriminate].
  intros Hreq. injection Hreq as <-. simpl.
  repeat split; intros; subst;
    match goal with
    | H : dict_get _ _ = _ |- _ => rewrite H in *
    end; simpl in *; congruence.
Qed.

(** X6: a [scenario] or [speed] that is neither [null] nor a string, and
    that the installed pydantic does not take for a string, fails
    validation: the request is rejected and the clock is not read. *)
Theorem simulate_rejects_unaccepted_field fields k v p :
  k = "scenario" \/ k = "speed" ->
  dict_get fields k = Some v ->
  is_null v = false ->
  is_str (Some v) = false ->
  lax_str v = None ->
  post_simulate lax_str lax_dict (PDict fields) p = (Unprocessable, p).
Proof.
  intros Hk Hget Hnull Hstr Hlax. apply post_simulate_rejected.
  unfold accepted, validate_SimulationRequest, validate_fields.
  assert (Hfield : forall default, validate_optional_str lax_str default (Some v) = None).
  { intros default. unfold validate_optional_str, validate_str.
    destruct v; try discriminate; now rewrite Hlax. }
  destruct Hk as [-> | ->]; rewrite Hget, Hfield.
  - reflexivity.
  - now destruct (validate_optional_str lax_str "upi_scam" (dict_get fields "scenario")).
Qed.

End SimulateMore.


Lemma simulate_ignores_unknown_fields_witness :
  String.eqb "seed" "scenario" = false /\
  String.eqb "seed" "speed" = false /\
  validate_SimulationRequest strict_str strict_dict
    (PDict (dict_set [("speed", PStr "fast")] "seed" (PInt 7))) =
    validate_SimulationRequest strict_str strict_dict (PDict [("speed", PStr "fast")]) /\
  post_simulate strict_str strict_dict
    (PDict (dict_set [("speed", PStr "fast")] "seed" (PInt 7))) bare_process =
    post_simulate strict_str strict_dict (PDict [("speed", PStr "fast")]) bare_process.
Proof.
  split; [reflexivity |]. split; [reflexivity |].
  apply (simulate_ignores_unknown_fields strict_str strict_dict
           [("speed", PStr "fast")] "seed" (PInt 7) bare_process); reflexivity.
Defined.

Lemma simulate_request_fields_witness :
  validate_SimulationRequest strict_str strict_dict (PDict [("speed", PNone)]) =
    Some (mkSimulationRequest (Some "upi_scam") None) /\
  scenario (mkSimulationRequest (Some "upi_scam") None) = Some "upi_scam" /\
  speed (mkSimulationRequest (Some "upi_scam") None) = None.
Proof.
  split; [reflexivity |].
  pose proof (simulate_request_fields strict_str strict_dict [("speed", PNone)]
                (mkSimulationRequest (Some "upi_scam") None) eq_refl)
    as (Hsc & _ & _ & Hsp & _).
  split; [apply Hsc | apply Hsp]; reflexivity.
Defined.

Lemma simulate_rejects_unaccepted_field_witness :
  dict_get [("speed", PInt 3)] "speed" = Some (PInt 3) /\
  is_null (PInt 3) = false /\
  is_str (Some (PInt 3)) = false /\
  strict_str (PInt 3) = None /\
  post_simulate strict_str strict_dict (PDict [("speed", PInt 3)]) bare_process =
    (Unprocessable, bare_process).
Proof.
  split; [reflexivity |]. split; [reflexivity |]. split; [reflexivity |].
  split; [reflexivity |].
  apply (simulate_rejects_unaccepted_field strict_str strict_dict
           [("speed", PInt 3)] "speed" (PInt 3) bare_process);
    [right; reflexivity | reflexivity ..].
Defined.

(** ** The timestamp *)

Lemma digit_injective a b : a < 10 -> b < 10 -> digit a = digit b -> a = b.
Proof.
  unfold digit. intros Ha Hb Heq.
  apply (f_equal nat_of_ascii) in Heq.
  rewrite !nat_ascii_embedding in Heq by lia. lia.
Qed.

Lemma two_digits_injective a b :
  a < 100 -> b < 100 -> two_digits a = two_digits b -> a = b.
Proof.
  unfold two_digits. intros Ha Hb.
  pose proof (Nat.div_mod_eq a 10) as Ea. pose proof (Nat.div_mod_eq b 10) as Eb.
  assert (Hqa : a / 10 < 10) by (apply Nat.Div0.div_lt_upper_bound; lia).
  assert (Hqb : b / 10 < 10) by (apply Nat.Div0.div_lt_upper_bound; lia).
  assert (Hra : a mod 10 < 10) by (apply Nat.mod_upper_bound; lia).
  assert (Hrb : b mod 10 < 10) by (apply Nat.mod_upper_bound; lia).
  revert Ea Eb Hqa Hqb Hra Hrb.
  generalize (a / 10) (a mod 10) (b / 10) (b mod 10).
  intros qa ra qb rb Ea Eb Hqa Hqb Hra Hrb Heq.
  injection Heq as Hhi Hlo.
  apply digit_injective in Hhi; [| assumption | assumption].
  apply digit_injective in Hlo; [| assumption | assumption].
  lia.
Qed.

(** Two stamps that agree agree on the two digits before a colon and on
    what follows it. *)
Lemma two_digits_colon_inv a b x y :
  (two_digits a ++ ":" ++ x = two_digits b ++ ":" ++ y)%string ->
  two_digits a = two_digits b /\ x = y.
Proof.
  unfold two_digits.
  generalize (digit (a / 10)) (digit (a mod 10)) (digit (b / 10)) (digit (b mod 10)).
  intros c1 c2 c3 c4 Heq. cbn [append] in Heq.
  injection Heq as -> -> ->. split; reflexivity.
Qed.

(** X7: the timestamp [strftime("%H:%M:%S")] always has eight
    characters, with a colon in the third and the sixth place, and two
    times of day with the same timestamp are the same time: the stamp
    tells the second of the day. *)
Theorem strftime_HMS_tells_the_time d1 d2 :
  valid_time d1 = true ->
  valid_time d2 = true ->
  String.length (strftime_HMS d1) = 8 /\
  String.get 2 (strftime_HMS d1) = Some ":"%char /\
  String.get 5 (strftime_HMS d1) = Some ":"%char /\
  (strftime_HMS d1 = strftime_HMS d2 -> d1 = d2).
Proof.
  unfold valid_time. intros H1 H2.
  apply andb_prop in H1 as [H1 Hs1]. apply andb_prop in H1 as [Hh1 Hm1].
  apply andb_prop in H2 as [H2 Hs2]. apply andb_prop in H2 as [Hh2 Hm2].
  apply Nat.ltb_lt in Hh1, Hm1, Hs1, Hh2, Hm2, Hs2.
  split; [reflexivity |]. split; [reflexivity |]. split; [reflexivity |].
  destruct d1 as [h1 m1 s1], d2 as [h2 m2 s2]. unfold strftime_HMS.
  cbn [hour minute second] in *. intros Heq.
  apply two_digits_colon_inv in Heq as [Hh Heq].
  apply two_digits_colon_inv in Heq as [Hm Hs].
  apply two_digits_injective in Hh; [| lia | lia].
  apply two_digits_injective in Hm; [| lia | lia].
  apply two_digits_injective in Hs; [| lia | lia].
  congruence.
Qed.

Lemma strftime_HMS_tells_the_time_witness :
  valid_time (mkDatetime 9 41 7) = true /\
  valid_time (mkDatetime 23 59 59) = true /\
  strftime_HMS (mkDatetime 9 41 7) = "09:41:07" /\
  String.length (strftime_HMS (mkDatetime 9 41 7)) = 8 /\
  (strftime_HMS (mkDatetime 9 41 7) = strftime_HMS (mkDatetime 23 59 59) ->
   mkDatetime 9 41 7 = mkDatetime 23 59 59).
Proof.
  split; [reflexivity |]. split; [reflexivity |]. split; [reflexivity |].
  pose proof (strftime_HMS_tells_the_time (mkDatetime 9 41 7) (mkDatetime 23 59 59)
                eq_refl eq_refl) as (Hlen & _ & _ & Hinj).
  split; [exact Hlen | exact Hinj].
Defined.

(** ** GET /test: what the response says *)

Lemma str_len_app a b : str_len (a ++ b) = str_len a + str_len b.
Proof.
  induction a as [| c a IH]; simpl.
  - reflexivity.
  - destruct (is_continuation c); simpl; now rewrite IH.
Qed.

(** X8: in every response of GET /test, [database_url] and
    [database_name] tell the environment and nothing else: set when the
    variable holds a non-empty string, not set when it is missing or
    empty.  What the probe wrote there before is overwritten. *)
Theorem test_database_reports_environment p r :
  fst (test_database p) = inr r ->
  (forall s, environ p "DATABASE_URL" = Some s -> s <> EmptyString ->
             item r "database_url" = Some (PStr "✅ Set")) /\
  (environ p "DATABASE_URL" = None \/ environ p "DATABASE_URL" = Some EmptyString ->
   item r "database_url" = Some (PStr "❌ Not Set")) /\
  (forall s, environ p "DATABASE_NAME" = Some s -> s <> EmptyString ->
             item r "database_name" = Some (PStr "✅ Set")) /\
  (environ p "DATABASE_NAME" = None \/ environ p "DATABASE_NAME" = Some EmptyString ->
   item r "database_name" = Some (PStr "❌ Not Set")).
Proof.
  intros Hr. destruct (test_database_environment p r Hr) as [Hurl Hname].
  rewrite Hurl, Hname. repeat split.
  - intros s -> Hs. destruct s; [contradiction | reflexivity].
  - intros [-> | ->]; reflexivity.
  - intros s -> Hs. destruct s; [contradiction | reflexivity].
  - intros [-> | ->]; reflexivity.
Qed.

Lemma test_database_reports_environment_witness :
  (exists r,
      fst (test_database empty_url_process) = inr r /\
      item r "database_url" = Some (PStr "❌ Not Set")) /\
  (exists r,
      fst (test_database working_process) = inr r /\
      item r "database_url" = Some (PStr "✅ Set") /\
      item r "database_name" = Some (PStr "✅ Set")).
Proof.
  split.
  - eexists. split; [reflexivity |].
    pose proof (test_database_reports_environment empty_url_process _ eq_refl)
      as (_ & Hurl & _).
    apply Hurl. right. reflexivity.
  - eexists. split; [reflexivity |].
    pose proof (test_database_reports_environment working_process _ eq_refl)
      as (Hurl & _ & Hname & _).
    split.
    + apply (Hurl "mongodb://localhost:27017"); [reflexivity | discriminate].
    + apply (Hname "afsa"); [reflexivity | discriminate].
Defined.

(** Finds among the operations of the data store the one that raised. *)
Ltac find_raiser :=
  unfold store_raises; simpl;
  ((left; reflexivity) +
   (right; eexists; split; [reflexivity |];
    ((left; reflexivity) + (right; reflexivity)))).

(** X9: what leaves GET /test as an exception is one of three things:
    an exception of the data store that is not an instance of
    [Exception]; what [str(e)] raised while an error of the data store
    was being rendered; or what [str] raised while the error raised by
    such a rendering was rendered in its turn.  So when the text of every
    error of the data store can be had, no instance of [Exception] leaves
    the handler. *)
Theorem test_database_raises_no_error p e :
  fst (test_database p) = inl e ->
  ((is_Exception e = false /\ store_raises p e) \/
   (exists e0,
       store_raises p e0 /\ is_Exception e0 = true /\ exc_str e0 = inl e) \/
   (exists e1 e0,
       store_raises p e1 /\ is_Exception e1 = true /\ exc_str e1 = inl e0 /\
       is_Exception e0 = true /\ exc_str e0 = inl e)) /\
  (error_texts_render p = true -> is_Exception e = false /\ store_raises p e).
Proof.
  unfold error_texts_render, text_renders.
  data_store_cases p; intros Hr; try discriminate Hr; injection Hr as <-;
    (split;
     [ solve [ left; split; [reflexivity | find_raiser]
             | right; left; eexists; split; [find_raiser | split; reflexivity]
             | right; right; do 2 eexists; split; [find_raiser |];
               repeat split; reflexivity ]
     | intros Htxt; try discriminate Htxt;
       (split; [reflexivity | find_raiser]) ]).
Qed.

Lemma test_database_raises_no_error_witness :
  fst (test_database interrupted_process) =
    inl (error BaseExceptionOnly "KeyboardInterrupt") /\
  error_texts_render interrupted_process = true /\
  is_Exception (error BaseExceptionOnly "KeyboardInterrupt") = false /\
  store_raises interrupted_process (error BaseExceptionOnly "KeyboardInterrupt").
Proof.
  split; [reflexivity |]. split; [reflexivity |].
  apply (proj2 (test_database_raises_no_error interrupted_process
                  (error BaseExceptionOnly "KeyboardInterrupt") eq_refl)).
  reflexivity.
Defined.

(** Closes one case of what the data store does: splits the statement,
    opens what is assumed about the process and compares the fields. *)
Ltac status_case :=
  repeat first
    [ match goal with
      | |- _ /\ _ => split
      | |- _ <-> _ => split
      | |- _ -> _ => intro
      | H : exists _, _ |- _ => destruct H
      | H : _ /\ _ |- _ => destruct H
      | H : @inr _ _ _ = inr _ |- _ => inversion H; clear H; subst
      end
    | progress simpl in * ];
  try discriminate; try reflexivity;
  try (left; reflexivity); try (right; reflexivity);
  try (eexists; split; reflexivity);
  try (do 2 eexists; repeat split; reflexivity).

(** X10: [connection_status] is "Connected" exactly when the import bound
    an object and reading its [name] did not stop the probe, whether or
    not the collections could then be listed; otherwise it is "Not
    Connected". *)
Theorem test_database_connection_status p r :
  fst (test_database p) = inr r ->
  (item r "connection_status" = Some (PStr "Connected") <->
   exists db, import_db p = inr (Some db) /\ name_readable db = true) /\
  (item r "connection_status" = Some (PStr "Connected") \/
   item r "connection_status" = Some (PStr "Not Connected")).
Proof.
  data_store_cases p; intros Hr; try discriminate Hr;
    injection Hr as <-; status_case.
Qed.

Lemma test_database_connection_status_witness :
  exists r,
    fst (test_database unreachable_process) = inr r /\
    item r "connection_status" = Some (PStr "Connected") /\
    item r "collections" = Some (PList []).
Proof.
  eexists. split; [reflexivity |]. split; [| reflexivity].
  apply (proj1 (test_database_connection_status unreachable_process _ eq_refl)).
  eexists. split; reflexivity.
Defined.

(** X11: [database] reads "Connected & Working" exactly when the import
    bound an object, reading its [name] did not stop the probe and
    [list_collection_names()] returned. *)
Theorem test_database_working p r :
  fst (test_database p) = inr r ->
  (item r "database" = Some (PStr "✅ Connected & Working") <->
   exists db names,
     import_db p = inr (Some db) /\
     name_readable db = true /\
     db_list_collection_names db = inr names).
Proof.
  data_store_cases p; intros Hr; try discriminate Hr;
    injection Hr as <-; status_case.
Qed.

Lemma test_database_working_witness :
  exists r,
    fst (test_database working_process) = inr r /\
    item r "database" = Some (PStr "✅ Connected & Working").
Proof.
  eexists. split; [reflexivity |].
  apply (test_database_working working_process _ eq_refl).
  do 2 eexists. repeat split.
Defined.

(** ** GET /test: errors of the data store *)

(** X12: when the import fails with an error other than [ImportError],
    whose text is [text], [database] is the error mark followed by the
    first 50 characters of that text: a text of at most 50 characters is
    shown in full, a longer one is cut, and the status never has more
    than 59 characters.  Nothing else of the response changes. *)
Theorem test_database_import_error_is_cut p e text :
  import_db p = inl e ->
  is_ImportError e = false ->
  is_Exception e = true ->
  exc_str e = inr text ->
  exists response status,
    test_database p = (inr (PDict response), p) /\
    dict_get response "database" = Some (PStr status) /\
    status = ("❌ Error: " ++ str_prefix 50 text)%string /\
    str_len status <= 59 /\
    (str_len text <= 50 -> status = ("❌ Error: " ++ text)%string) /\
    dict_get response "connection_status" = Some (PStr "Not Connected") /\
    dict_get response "collections" = Some (PList []).
Proof.
  intros Himp Hcls Hexc Htext.
  destruct (test_database_import_error p e text Himp Hcls Hexc Htext)
    as (response & Hrun & Hdb & Hconn & Hcoll).
  exists response. eexists.
  split; [exact Hrun |]. split; [exact Hdb |]. split; [reflexivity |].
  split; [| split; [| split; assumption]].
  - rewrite str_len_app. pose proof (str_prefix_len 50 text).
    change (str_len "❌ Error: ") with 9. lia.
  - intros Hshort. now rewrite str_prefix_short.
Qed.

Lemma test_database_import_error_is_cut_witness :
  str_len long_message = 90 /\
  exists response status,
    test_database failing_import_process = (inr (PDict response), failing_import_process) /\
    dict_get response "database" = Some (PStr status) /\
    status = "❌ Error: ServerSelectionTimeoutError: localhost:27017: [Err" /\
    str_len status <= 59.
Proof.
  split; [reflexivity |].
  destruct (test_database_import_error_is_cut failing_import_process
              (error OtherException long_message) long_message
              eq_refl eq_refl eq_refl eq_refl)
    as (response & status & Hrun & Hget & Hstatus & Hlen & _).
  exists response, status. repeat split; assumption.
Defined.

(** X13: when [list_collection_names()] fails with an error whose text is
    [text], the response still says "Connected", leaves [collections]
    empty, and shows in [database] the first 50 characters of that text
    after the warning mark, 75 characters at most. *)
Theorem test_database_listing_error_is_cut p db e text :
  import_db p = inr (Some db) ->
  name_readable db = true ->
  db_list_collection_names db = inl e ->
  is_Exception e = true ->
  exc_str e = inr text ->
  exists response status,
    test_database p = (inr (PDict response), p) /\
    dict_get response "database" = Some (PStr status) /\
    status = ("⚠️  Connected but Error: " ++ str_prefix 50 text)%string /\
    str_len status <= 75 /\
    dict_get response "connection_status" = Some (PStr "Connected") /\
    dict_get response "collections" = Some (PList []).
Proof.
  intros Himp Hname Hlist Hexc Htext.
  destruct (test_database_listing_error p db e text Himp Hname Hlist Hexc Htext)
    as (response & Hrun & Hdb & Hconn & Hcoll).
  exists response. eexists.
  split; [exact Hrun |]. split; [exact Hdb |]. split; [reflexivity |].
  split; [| split; assumption].
  rewrite str_len_app. pose proof (str_prefix_len 50 text).
  change (str_len "⚠️  Connected but Error: ") with 25. lia.
Qed.

Lemma test_database_listing_error_is_cut_witness :
  exists response status,
    test_database unreachable_process = (inr (PDict response), unreachable_process) /\
    dict_get response "database" = Some (PStr status) /\
    status =
      "⚠️  Connected but Error: localhost:27017: [Errno 111] Connection refused" /\
    dict_get response "connection_status" = Some (PStr "Connected") /\
    dict_get response "collections" = Some (PList []).
Proof.
  destruct (test_database_listing_error_is_cut unreachable_process
              (mkDatabase (inr (PStr "afsa"))
                 (inl (error OtherException
                         "localhost:27017: [Errno 111] Connection refused")))
              (error OtherException "localhost:27017: [Errno 111] Connection refused")
              "localhost:27017: [Errno 111] Connection refused"
              eq_refl eq_refl eq_refl eq_refl eq_refl)
    as (response & status & Hrun & Hget & Hstatus & _ & Hconn & Hcoll).
  exists response, status. repeat split; assumption.
Defined.

(** X14: when reading [db.name] fails with an error other than
    [AttributeError] or [ImportError], whose text is [text], the probe
    stops there: [list_collection_names()] is not consulted, the response
    says "Not Connected" with no collections, and [database] shows the
    error; the writes made before the failure do not reach the response.
    A missing [name] ([AttributeError]) does not stop the probe. *)
Theorem test_database_name_error p e listing :
  import_db p = inr (Some (mkDatabase (inl e) listing)) ->
  is_Exception e = true ->
  (is_AttributeError e = false ->
   is_ImportError e = false ->
   forall text,
   exc_str e = inr text ->
   test_database p =
     (inr (PDict
             [ ("backend", PStr "✅ Running");
               ("database", PStr ("❌ Error: " ++ str_prefix 50 text));
               ("database_url",
                PStr (if truthy (environ p "DATABASE_URL") then "✅ Set" else "❌ Not Set"));
               ("database_name",
                PStr (if truthy (environ p "DATABASE_NAME") then "✅ Set" else "❌ Not Set"));
               ("connection_status", PStr "Not Connected");
               ("collections", PList []) ]), p)) /\
  (is_AttributeError e = true ->
   forall names, listing = inr names ->
   exists response,
     test_database p = (inr (PDict response), p) /\
     dict_get response "connection_status" = Some (PStr "Connected") /\
     dict_get response "collections" = Some (PList (map PStr (firstn 10 names)))).
Proof.
  intros Himp Hexc.
  destruct p as [clk n env imp]. simpl in Himp. subst imp.
  unfold test_database, probe_database, bind, try_except, lift, hasattr_name. simpl.
  split.
  - intros Hattr Hcls text Htext. rewrite Hattr. simpl.
    rewrite Hcls, Hexc, Htext. reflexivity.
  - intros Hattr names ->. rewrite Hattr. simpl.
    eexists. split; [reflexivity |]. split; reflexivity.
Qed.

Lemma test_database_name_error_witness :
  import_db broken_name_process =
    inr (Some (mkDatabase (inl (error OtherException "name: not authorized"))
                 (inr twelve_names))) /\
  item (PDict
          [ ("backend", PStr "✅ Running");
            ("database", PStr "❌ Error: name: not authorized");
            ("database_url", PStr "❌ Not Set");
            ("database_name", PStr "❌ Not Set");
            ("connection_status", PStr "Not Connected");
            ("collections", PList []) ]) "collections" = Some (PList []) /\
  test_database broken_name_process =
    (inr (PDict
            [ ("backend", PStr "✅ Running");
              ("database", PStr "❌ Error: name: not authorized");
              ("database_url", PStr "❌ Not Set");
              ("database_name", PStr "❌ Not Set");
              ("connection_status", PStr "Not Connected");
              ("collections", PList []) ]), broken_name_process).
Proof.
  split; [reflexivity |]. split; [reflexivity |].
  apply (proj1 (test_database_name_error broken_name_process
                  (error OtherException "name: not authorized") (inr twelve_names)
                  eq_refl eq_refl) eq_refl eq_refl "name: not authorized" eq_refl).
Defined.

(** X15: the value of [db.name] never reaches the response: two data
    stores that differ only in their name, or of which one has no [name]
    at all, get the same response. *)
Theorem test_database_name_not_reported p listing name1 name2 e :
  is_AttributeError e = true ->
  fst (test_database (with_import p (inr (Some (mkDatabase (inr name1) listing))))) =
    fst (test_database (with_import p (inr (Some (mkDatabase (inr name2) listing))))) /\
  fst (test_database (with_import p (inr (Some (mkDatabase (inr name1) listing))))) =
    fst (test_database (with_import p (inr (Some (mkDatabase (inl e) listing))))).
Proof.
  intros Hattr. unfold with_import.
  data_store_cases p; try discriminate Hattr; split; reflexivity.
Qed.

Lemma test_database_name_not_reported_witness :
  is_AttributeError (error AttributeError "no attribute 'name'") = true /\
  fst (test_database
         (with_import working_process
            (inr (Some (mkDatabase (inr (PStr "afsa")) (inr twelve_names)))))) =
    fst (test_database
           (with_import working_process
              (inr (Some (mkDatabase (inr (PInt 42)) (inr twelve_names)))))).
Proof.
  split; [reflexivity |].
  apply (proj1 (test_database_name_not_reported working_process (inr twelve_names)
                  (PStr "afsa") (PInt 42)
                  (error AttributeError "no attribute 'name'") eq_refl)).
Defined.

(** X16: no response of GET /test shows the values the dict starts with
    for [database], [database_url] and [database_name]: every path
    through the handler overwrites them, and the three fields are
    strings. *)
Theorem test_database_overwrites_placeholders p r :
  fst (test_database p) = inr r ->
  item r "database" <> Some (PStr "❌ Not Available") /\
  item r "database_url" <> Some PNone /\
  item r "database_name" <> Some PNone /\
  item r "database_url" <> Some (PStr "✅ Configured") /\
  is_str (item r "database") = true /\
  item r "backend" = Some (PStr "✅ Running").
Proof.
  intros Hr.
  destruct (test_database_environment p r Hr) as [Hurl Hname].
  rewrite Hurl, Hname.
  assert (Hdb : item r "database" <> Some (PStr "❌ Not Available") /\
                is_str (item r "database") = true /\
                item r "backend" = Some (PStr "✅ Running")).
  { revert Hr. data_store_cases p; intros Hr; try discriminate Hr;
      injection Hr as <-; simpl; repeat split; discriminate. }
  destruct Hdb as (Hdb & Hstr & Hback).
  repeat split; try assumption;
    destruct (truthy _); discriminate.
Qed.

Lemma test_database_overwrites_placeholders_witness :
  exists r,
    fst (test_database bare_process) = inr r /\
    item r "database" <> Some (PStr "❌ Not Available") /\
    item r "database_url" <> Some PNone.
Proof.
  eexists. split; [reflexivity |].
  pose proof (test_database_overwrites_placeholders bare_process _ eq_refl)
    as (Hdb & Hurl & _).
  split; [exact Hdb | exact Hurl].
Defined.

(** Opens what is assumed about the process and its data store. *)
Ltac open_assumptions :=
  repeat first
    [ match goal with
      | H : _ \/ _ |- _ => destruct H
      | H : exists _, _ |- _ => destruct H
      | H : _ /\ _ |- _ => destruct H
      | H : @inl _ _ _ = inl _ |- _ => inversion H; clear H; subst
      | H : @inr _ _ _ = inr _ |- _ => inversion H; clear H; subst
      end
    | progress simpl in * ].

(** X17: [database] reads "Database module not found" exactly when an
    [ImportError] reaches the outer [except] clause: from the import
    itself; with the module imported and [db] bound, from reading
    [db.name]; or from [str(e)] while an error of
    [list_collection_names()] is rendered.  So the message can appear
    although the module was found. *)
Theorem test_database_module_not_found p r :
  fst (test_database p) = inr r ->
  (item r "database" =
     Some (PStr "❌ Database module not found (run enable-database first)") <->
   (exists e, import_db p = inl e /\ is_ImportError e = true) \/
   (exists db e,
       import_db p = inr (Some db) /\ db_name db = inl e /\ is_ImportError e = true) \/
   (exists db e0 e,
       import_db p = inr (Some db) /\ name_readable db = true /\
       db_list_collection_names db = inl e0 /\ is_Exception e0 = true /\
       exc_str e0 = inl e /\ is_ImportError e = true)).
Proof.
  unfold name_readable.
  data_store_cases p; intros Hr; try discriminate Hr; injection Hr as <-;
    (split;
     [ intros Hdb; simpl in Hdb; try discriminate Hdb;
       solve [ left; eexists; split; reflexivity
             | right; left; do 2 eexists; repeat split; reflexivity
             | right; right; do 3 eexists; repeat split; reflexivity ]
     | intros Hcase; open_assumptions; try discriminate; reflexivity ]).
Qed.

Lemma test_database_module_not_found_witness :
  exists r,
    fst (test_database (with_import working_process (inr (Some lazy_name_db)))) = inr r /\
    item r "database" =
      Some (PStr "❌ Database module not found (run enable-database first)") /\
    item r "database_url" = Some (PStr "✅ Set").
Proof.
  eexists. split; [reflexivity |]. split; [| reflexivity].
  apply (test_database_module_not_found
           (with_import working_process (inr (Some lazy_name_db))) _ eq_refl).
  right. left. exists lazy_name_db, (error ImportError "No module named 'dns'").
  repeat split.
Defined.

(** ** GET /api/timeline and GET /api/legal-docs: the shape of the items *)

(** X18: every item of the timeline has exactly the keys time, title and
    data, in that order, with strings for the first two and a mapping for
    [data]; no two items share a title. *)
Theorem get_timeline_item_shape p :
  exists items,
    get_timeline p = (inr (PDict [("items", PList items)]), p) /\
    Forall (fun i =>
              keys i = Some ["time"; "title"; "data"] /\
              is_str (item i "time") = true /\
              is_str (item i "title") = true /\
              is_dict (item i "data") = true) items /\
    NoDup (map (fun i => item i "title") items).
Proof.
  eexists. split; [reflexivity |]. split.
  - repeat constructor.
  - repeat constructor; simpl; intuition discriminate.
Qed.

(** X19: every legal document has exactly the keys id, title, purpose
    and actions, in that order, with strings for the first three; no two
    documents share an id or a title. *)
Theorem legal_documents_doc_shape p :
  exists docs,
    legal_documents p = (inr (PDict [("docs", PList docs)]), p) /\
    Forall (fun d =>
              keys d = Some ["id"; "title"; "purpose"; "actions"] /\
              is_str (item d "id") = true /\
              is_str (item d "title") = true /\
              is_str (item d "purpose") = true) docs /\
    NoDup (map (fun d => item d "id") docs) /\
    NoDup (map (fun d => item d "title") docs).
Proof.
  eexists. split; [reflexivity |]. split; [| split].
  - repeat constructor.
  - repeat constructor; simpl; intuition discriminate.
  - repeat constructor; simpl; intuition discriminate.
Qed.
